(** * Northstar tag-angle calculator: a shallow embedding

    Source: [northstar/pipeline/TagAngleCalculator.py], class
    [CameraMatrixTagAngleCalculator], method [calc_tag_angles].

    Python floats are IEEE binary64 values; they are modelled by the
    Standard Library's [spec_float] at precision 53 and exponent bound 1024.
    Exceptions are modelled by their class name.  The routines the method
    calls in other modules (OpenCV, NumPy, [math], wpimath and the pose
    estimator of [pipeline.PoseEstimator]) are the fields of the class
    [Externals]. *)

From Stdlib Require Import ZArith Bool Lia Ascii.
From Stdlib Require Import Floats.SpecFloat.
From stdpp Require Import base list strings pretty.

(** ** Binary64 arithmetic *)

Module F64.

Definition prec : Z := 53.
Definition emax : Z := 1024.

Definition float : Type := spec_float.

Definition add : float -> float -> float := SFadd prec emax.
Definition mul : float -> float -> float := SFmul prec emax.
Definition sqrt : float -> float := SFsqrt prec emax.
Definition ltb : float -> float -> bool := SFltb.
Definition eqb : float -> float -> bool := SFeqb.

(** [0.0], as [np.zeros] fills its array, and [1.0], the value the
    integer literal [1] takes inside a float array. *)
Definition zero : float := S754_zero false.
Definition one : float := S754_finite false 4503599627370496 (-52).

(** The literals of the specification's scenarios, each the binary64
    value nearest to the decimal. *)
Definition lit_0_01 : float := S754_finite false 5764607523034235 (-59).
Definition lit_0_02 : float := S754_finite false 5764607523034235 (-58).
Definition lit_0_1 : float := S754_finite false 7205759403792794 (-56).
Definition lit_1_5 : float := S754_finite false 6755399441055744 (-52).
Definition lit_2_0 : float := S754_finite false 4503599627370496 (-51).
Definition lit_2_5 : float := S754_finite false 5629499534213120 (-51).
Definition neg (x : float) : float := SFopp x.

End F64.

Abbreviation float := F64.float.

(** ** Exceptions *)

Inductive PyException : Type :=
| PyExc (class_name : string).

#[global] Instance PyException_eq_dec : EqDecision PyException.
Proof. solve_decision. Defined.

(** Raised by the code or by the libraries it calls. *)
Definition NotImplementedError : PyException := PyExc "NotImplementedError".
Definition IndexError : PyException := PyExc "IndexError".
Definition LinAlgError : PyException := PyExc "numpy.linalg.LinAlgError".
Definition cv2_error : PyException := PyExc "cv2.error".
Definition TypeError : PyException := PyExc "TypeError".

Definition InvalidCalibration : PyException := PyExc "InvalidCalibration".
Definition PoseSolveFailure : PyException := PyExc "PoseSolveFailure".

(** A pure computation that may raise. *)
Definition Exc (A : Type) : Type := PyException + A.

Definition exc_bind {A B} (m : Exc A) (k : A -> Exc B) : Exc B :=
  match m with
  | inl e => inl e
  | inr a => k a
  end.

(** A computation over the state of the shared pose estimator object
    that may raise. *)
Definition M (St A : Type) : Type := St -> Exc A * St.

Definition ret {St A} (a : A) : M St A := fun s => (inr a, s).

Definition raise {St A} (e : PyException) : M St A := fun s => (inl e, s).

Definition bind {St A B} (m : M St A) (k : A -> M St B) : M St B :=
  fun s =>
    match m s with
    | (inl e, s') => (inl e, s')
    | (inr a, s') => k a s'
    end.

Definition lift {St A} (m : Exc A) : M St A := fun s => (m, s).

Declare Scope py_scope.
Delimit Scope py_scope with py.

Notation "x <- m ;; k" := (bind m (fun x => k))
  (at level 100, m at next level, right associativity) : py_scope.
Notation "x <-! m ;; k" := (exc_bind m (fun x => k))
  (at level 100, m at next level, right associativity) : py_scope.

(** ** Data model *)

(** A tag id.  The annotation [int] is not enforced at run time: [None]
    stands for a missing id. *)
Definition tag : Type := option Z.

Definition point : Type := float * float.
Definition vec3 : Type := float * float * float.
Definition mat3 : Type := vec3 * vec3 * vec3.

Definition identity3 : mat3 :=
  ((F64.one, F64.zero, F64.zero),
   (F64.zero, F64.one, F64.zero),
   (F64.zero, F64.zero, F64.one)).

Definition zeros3 : mat3 :=
  ((F64.zero, F64.zero, F64.zero),
   (F64.zero, F64.zero, F64.zero),
   (F64.zero, F64.zero, F64.zero)).

Module LocalConfig.
Record t : Type := mk {
  camera_matrix : mat3;
  distortion_coefficients : list float
}.
End LocalConfig.

Module ConfigStore.
Record t : Type := mk {
  local_config : LocalConfig.t
}.
End ConfigStore.

Module FiducialImageObservation.
Record t : Type := mk {
  tag_id : tag;
  corners : list point
}.
End FiducialImageObservation.

Module Translation3d.
Record t : Type := mk { x : float; y : float; z : float }.
End Translation3d.

Module Rotation3d.
(** wpimath keeps a rotation as a quaternion. *)
Record t : Type := mk { w : float; x : float; y : float; z : float }.
End Rotation3d.

Module Pose3d.
Record t : Type := mk {
  translation : Translation3d.t;
  rotation : Rotation3d.t
}.
End Pose3d.

Module FiducialPoseObservation.
Record t : Type := mk {
  tag_id : tag;
  pose_0 : Pose3d.t;
  error_0 : float;
  pose_1 : Pose3d.t;
  error_1 : float
}.
End FiducialPoseObservation.

Module TagAngleObservation.
Record t : Type := mk {
  tag_id : tag;
  corners : list (float * float);
  distance : float
}.
End TagAngleObservation.

(** ** Routines of other packages

    [St] is the state of the pose estimator object, which the class
    attribute [_tag_pose_estimator] shares between all calls.

    - [cv2.undistortPoints(src, cameraMatrix, distCoeffs, R, P)], given
      at least one point, either rejects its arguments with [cv2.error]
      or maps every point of [src] separately, returning as many points
      as it was given, in order; given no point it returns [None] (an
      empty result array reaches Python as [None]);
    - [np.linalg.inv] returns the inverse or raises [LinAlgError];
    - [math.atan] is total on floats;
    - [Translation3d.norm] is wpimath's Euclidean norm;
    - [solve_fiducial_pose] is the repository's [SquareTargetPoseEstimator]
      method: it may raise anything and may change the estimator. *)
Class Externals (St : Type) : Type := {
  cv2_accepts : list point -> mat3 -> list float -> mat3 -> bool;
  cv2_undistort_point : mat3 -> list float -> mat3 -> point -> point;
  np_linalg_inv : mat3 -> option mat3;
  math_atan : float -> float;
  norm : Translation3d.t -> float;
  solve_fiducial_pose :
    FiducialImageObservation.t -> ConfigStore.t -> M St FiducialPoseObservation.t
}.

(** ** NumPy array operations used by the method *)

(** [np.zeros((n, 2))]. *)
Definition np_zeros (n : nat) : list (float * float) :=
  replicate n (F64.zero, F64.zero).

(** [a.dot(v)] for a 3x3 matrix and a vector of length 3. *)
Definition dot_row (r v : vec3) : float :=
  let '(a, b, c) := r in
  let '(x, y, z) := v in
  F64.add (F64.add (F64.mul a x) (F64.mul b y)) (F64.mul c z).

Definition dot (m : mat3) (v : vec3) : vec3 :=
  let '(r0, r1, r2) := m in
  (dot_row r0 v, dot_row r1 v, dot_row r2 v).

(** [a[i][j] = v] on an array of rows of length 2: [a[i]] raises
    [IndexError] when [i] is not a row. *)
Definition setitem (a : list (float * float)) (i j : nat) (v : float)
  : Exc (list (float * float)) :=
  match a !! i with
  | None => inl IndexError
  | Some row =>
      match j with
      | 0 => inr (<[i := (v, row.2)]> a)
      | 1 => inr (<[i := (row.1, v)]> a)
      | _ => inl IndexError
      end
  end.

(** ** The abstract base class *)

Module TagAngleCalculator.

Definition init {St} : M St unit := raise NotImplementedError.

Definition calc_tag_angles {St}
    (image_observation : FiducialImageObservation.t)
    (config_store : ConfigStore.t) : M St TagAngleObservation.t :=
  raise NotImplementedError.

End TagAngleCalculator.

(** ** [CameraMatrixTagAngleCalculator] *)

Module CameraMatrixTagAngleCalculator.
Section WithExternals.

Context {St : Type} `{!Externals St}.

Definition init : M St unit := ret tt.

(** Line 26: the call of [cv2.undistortPoints] with the camera matrix
    as both [cameraMatrix] and [P].  The result is [None] for Python's
    [None]. *)
Definition cv2_undistortPoints (src : list point) (cameraMatrix : mat3)
    (distCoeffs : list float) (P : mat3) : Exc (option (list point)) :=
  match src with
  | [] => inr None
  | _ :: _ =>
      if cv2_accepts src cameraMatrix distCoeffs P
      then inr (Some (map (cv2_undistort_point cameraMatrix distCoeffs P) src))
      else inl cv2_error
  end.

(** Line 31: the ray through one undistorted corner.  The inverse is
    taken anew for every corner. *)
Definition corner_vec (camera_matrix : mat3) (corner : point) : Exc vec3 :=
  match np_linalg_inv camera_matrix with
  | None => inl LinAlgError
  | Some inverse => inr (dot inverse (corner.1, corner.2, F64.one))
  end.

(** Lines 30-33: the loop over [enumerate(corners_undistorted)],
    started at [index] with the array [corners]. *)
Fixpoint angle_loop (camera_matrix : mat3) (index : nat)
    (corners_undistorted : list point) (corners : list (float * float))
    : Exc (list (float * float)) :=
  match corners_undistorted with
  | [] => inr corners
  | corner :: rest =>
      (vec <-! corner_vec camera_matrix corner;;
       corners <-! setitem corners index 0 (math_atan vec.1.1);;
       corners <-! setitem corners index 1 (math_atan vec.1.2);;
       angle_loop camera_matrix (S index) rest corners)%py
  end.

(** Lines 29-33.  [enumerate(None)] raises [TypeError]. *)
Definition calc_angles (camera_matrix : mat3)
    (corners_undistorted : option (list point))
    : Exc (list (float * float)) :=
  let corners := np_zeros 4 in
  match corners_undistorted with
  | None => inl TypeError
  | Some corners_undistorted =>
      angle_loop camera_matrix 0 corners_undistorted corners
  end.

(** Lines 37-41. *)
Definition select_distance (pose_observation : FiducialPoseObservation.t)
    : float :=
  if F64.ltb (FiducialPoseObservation.error_0 pose_observation)
             (FiducialPoseObservation.error_1 pose_observation)
  then norm (Pose3d.translation
               (FiducialPoseObservation.pose_0 pose_observation))
  else norm (Pose3d.translation
               (FiducialPoseObservation.pose_1 pose_observation)).

(** Lines 24-44. *)
Definition calc_tag_angles
    (image_observation : FiducialImageObservation.t)
    (config_store : ConfigStore.t) : M St TagAngleObservation.t :=
  let camera_matrix :=
    LocalConfig.camera_matrix (ConfigStore.local_config config_store) in
  let distortion_coefficients :=
    LocalConfig.distortion_coefficients
      (ConfigStore.local_config config_store) in
  (corners_undistorted <-
     lift (cv2_undistortPoints
             (FiducialImageObservation.corners image_observation)
             camera_matrix distortion_coefficients camera_matrix);;
   corners <- lift (calc_angles camera_matrix corners_undistorted);;
   pose_observation <- solve_fiducial_pose image_observation config_store;;
   let distance := select_distance pose_observation in
   ret (TagAngleObservation.mk
          (FiducialImageObservation.tag_id image_observation)
          corners distance))%py.

End WithExternals.
End CameraMatrixTagAngleCalculator.

(** ** Specification-side vocabulary *)

Section Vocabulary.

Context {St : Type} `{!Externals St}.

(** The angle pair of one undistorted corner under an inverse camera
    matrix: [(atan x, atan y)] for [(x, y, z) = inverse . (u, v, 1)]. *)
Definition bearing (inverse : mat3) (corner : point) : float * float :=
  let '(x, y, z) := dot inverse (corner.1, corner.2, F64.one) in
  (math_atan x, math_atan y).

(** Lines 26-33 as one step: everything the method does before it
    calls the pose estimator. *)
Definition angle_stage (image_observation : FiducialImageObservation.t)
    (config_store : ConfigStore.t) : Exc (list (float * float)) :=
  let camera_matrix :=
    LocalConfig.camera_matrix (ConfigStore.local_config config_store) in
  exc_bind
    (CameraMatrixTagAngleCalculator.cv2_undistortPoints
       (FiducialImageObservation.corners image_observation)
       camera_matrix
       (LocalConfig.distortion_coefficients
          (ConfigStore.local_config config_store))
       camera_matrix)
    (CameraMatrixTagAngleCalculator.calc_angles camera_matrix).

(** A distortion vector of zeros. *)
Definition zero_distortion (distCoeffs : list float) : Prop :=
  Forall (fun k => k = F64.zero) distCoeffs.

End Vocabulary.

(** ** A concrete world to run the method in

    A camera without lens distortion, a cofactor inverse, a two-term
    series for the arc tangent, the square-root norm, and an estimator
    that replays a given answer and counts its calls. *)

Module Pinhole.

Definition sub : float -> float -> float := SFsub F64.prec F64.emax.
Definition div : float -> float -> float := SFdiv F64.prec F64.emax.

Definition minor (a b c d : float) : float :=
  sub (F64.mul a d) (F64.mul b c).

Definition inv (m : mat3) : option mat3 :=
  let '((a, b, c), (d, e, f), (g, h, i)) := m in
  let c00 := minor e f h i in
  let c01 := minor f d i g in
  let c02 := minor d e g h in
  let det := F64.add (F64.add (F64.mul a c00) (F64.mul b c01)) (F64.mul c c02) in
  match SFcompare det F64.zero with
  | Some Lt | Some Gt =>
      Some ((div c00 det, div (minor c b i h) det, div (minor b c e f) det),
            (div c01 det, div (minor a c g i) det, div (minor c a f d) det),
            (div c02 det, div (minor b a h g) det, div (minor a b d e) det))
  | _ => None
  end.

Definition atan_series (x : float) : float :=
  sub x (div (F64.mul x (F64.mul x x))
             (S754_finite false 6755399441055744 (-51))).

Definition euclidean_norm (t : Translation3d.t) : float :=
  let x := Translation3d.x t in
  let y := Translation3d.y t in
  let z := Translation3d.z t in
  F64.sqrt (F64.add (F64.add (F64.mul x x) (F64.mul y y)) (F64.mul z z)).

#[local] Instance externals
    (answer : FiducialImageObservation.t -> ConfigStore.t ->
              Exc FiducialPoseObservation.t) : Externals nat := {|
  cv2_accepts := fun _ _ _ _ => true;
  cv2_undistort_point := fun _ _ _ p => p;
  np_linalg_inv := inv;
  math_atan := atan_series;
  norm := euclidean_norm;
  solve_fiducial_pose := fun o c calls => (answer o c, S calls)
|}.

Definition no_rotation : Rotation3d.t :=
  Rotation3d.mk F64.one F64.zero F64.zero F64.zero.

Definition pose_at (x y z : float) : Pose3d.t :=
  Pose3d.mk (Translation3d.mk x y z) no_rotation.

(** Hypothesis 0 at norm 2.0, hypothesis 1 at norm 2.5. *)
Definition poses (error_0 error_1 : float) : FiducialPoseObservation.t :=
  FiducialPoseObservation.mk (Some 7%Z)
    (pose_at F64.lit_2_0 F64.zero F64.zero) error_0
    (pose_at F64.lit_1_5 F64.lit_2_0 F64.zero) error_1.

(** Equal fit-errors, and the fit-errors of the specification's
    scenario. *)
Definition tie : FiducialPoseObservation.t :=
  poses F64.lit_0_01 F64.lit_0_01.
Definition clear : FiducialPoseObservation.t :=
  poses F64.lit_0_01 F64.lit_0_02.

Definition m01 : float := F64.neg F64.lit_0_1.
Definition p01 : float := F64.lit_0_1.

(** The square of the specification's scenario. *)
Definition square : list point :=
  [(m01, m01); (p01, m01); (p01, p01); (m01, p01)].

Definition observation (corners : list point) : FiducialImageObservation.t :=
  FiducialImageObservation.mk (Some 7%Z) corners.


Definition calibration (camera_matrix : mat3) : ConfigStore.t :=
  ConfigStore.mk
    (LocalConfig.mk camera_matrix
       (replicate 5 F64.zero)).

(** The estimator that answers [pose_observation], and the one that
    raises [e]. *)
Definition replaying (pose_observation : FiducialPoseObservation.t)
  : Externals nat :=
  externals (fun _ _ => inr pose_observation).

Definition failing (e : PyException) : Externals nat :=
  externals (fun _ _ => inl e).

(** What this world returns under the identity camera matrix. *)
Definition rows (corners : list point) : list (float * float) :=
  map (fun c => (atan_series c.1, atan_series c.2)) corners
    ++ np_zeros (4 - length corners).

Definition expected (corners : list point) (distance : float)
  : TagAngleObservation.t :=
  TagAngleObservation.mk (Some 7%Z) (rows corners) distance.

(** An estimator whose answer changes with its state in what the method
    does not read: after the first call the tag id is the call count and
    hypothesis 0 is turned about the x axis. *)
Definition turned (calls : nat) : FiducialPoseObservation.t :=
  FiducialPoseObservation.mk (Some (Z.of_nat calls))
    (Pose3d.mk (Translation3d.mk F64.lit_2_0 F64.zero F64.zero)
               (Rotation3d.mk F64.zero F64.one F64.zero F64.zero))
    F64.lit_0_01
    (pose_at F64.lit_1_5 F64.lit_2_0 F64.zero)
    F64.lit_0_02.

#[local] Instance drifting : Externals nat := {|
  cv2_accepts := fun _ _ _ _ => true;
  cv2_undistort_point := fun _ _ _ p => p;
  np_linalg_inv := inv;
  math_atan := atan_series;
  norm := euclidean_norm;
  solve_fiducial_pose := fun _ _ calls =>
    (inr (match calls with 0 => clear | _ => turned calls end), S calls)
|}.

End Pinhole.

(** * The camera test script

    Source: [northstar/cv_test.py].  The list of cameras that
    [enumerate_cameras] returns and what the opened device and the keyboard
    deliver are given from outside. *)

Definition AttributeError : PyException := PyExc "AttributeError".

Module CameraInfo.
(** The entries of [cv2_enumerate_cameras]: [vid] and [pid] are [None]
    when the device does not report them. *)
Record t : Type := mk {
  index : Z;
  name : string;
  path : option string;
  vid : option Z;
  pid : option Z;
  backend : Z
}.
End CameraInfo.

Module VideoCapture.
(** [cv2.VideoCapture(index, apiPreference)]. *)
Record t : Type := mk {
  index : Z;
  apiPreference : Z
}.
End VideoCapture.

Module CvTest.

Definition CAP_ANY : Z := 0.

(** [ord(c)]. *)
Definition ord (c : ascii) : Z := Z.of_N (Ascii.N_of_ascii c).

(** [field == value] for a field that may be [None]: [None] equals no
    integer. *)
Definition eq_int (field : option Z) (value : Z) : bool :=
  match field with
  | Some v => Z.eqb v value
  | None => false
  end.

(** Line 7. *)
Definition matches (vid pid : Z) (i : CameraInfo.t) : bool :=
  eq_int (CameraInfo.vid i) vid && eq_int (CameraInfo.pid i) pid.

(** Lines 8-10: the three lines printed for the camera found. *)
Definition found_lines (vid pid : Z) (i : CameraInfo.t) : list string :=
  [ "Found camera: " +:+ pretty (CameraInfo.index i)
      +:+ " with VID " +:+ pretty vid +:+ " and PID " +:+ pretty pid;
    "Camera backend: " +:+ pretty (CameraInfo.backend i);
    "Camera name: " +:+ CameraInfo.name i ].

(** Lines 6-12: the loop over the enumerated cameras.  The result is what
    was printed and the capture returned, [None] for Python's [None]. *)
Fixpoint find_camera_loop (vid pid : Z) (cameras : list CameraInfo.t)
  : list string * option VideoCapture.t :=
  match cameras with
  | [] => ([], None)
  | i :: rest =>
      if matches vid pid i
      then (found_lines vid pid i,
            Some (VideoCapture.mk (CameraInfo.index i) (CameraInfo.backend i)))
      else find_camera_loop vid pid rest
  end.

(** Lines 5-12. *)
Definition find_camera (enumerate_cameras : Z -> list CameraInfo.t)
    (vid pid : Z) (apiPreference : Z) : list string * option VideoCapture.t :=
  find_camera_loop vid pid (enumerate_cameras apiPreference).

(** What the script writes to the terminal and shows in a window. *)
Inductive Effect (Frame : Type) : Type :=
| Print (line : string)
| Imshow (winname : string) (frame : Frame).

Arguments Print {Frame} line.
Arguments Imshow {Frame} winname frame.

(** One turn of the device and the keyboard: [cap.read()] fails, or it
    returns a frame and [cv2.waitKey(1)] then returns a key code. *)
Inductive Read (Frame : Type) : Type :=
| ReadFailed
| ReadFrame (frame : Frame) (key : Z).

Arguments ReadFailed {Frame}.
Arguments ReadFrame {Frame} frame key.

(** How a run ends: by [break], by an exception, or not within the turns
    given. *)
Inductive Status : Type :=
| Broke
| Raised (e : PyException)
| Running.

(** Lines 18-25: the [while True] loop, run over the turns given. *)
Fixpoint capture_loop {Frame : Type} (reads : list (Read Frame))
  : list (Effect Frame) * Status :=
  match reads with
  | [] => ([], Running)
  | ReadFailed :: _ => ([Print "Failed to capture frame"], Broke)
  | ReadFrame frame key :: rest =>
      if Z.eqb key (ord "q"%char)
      then ([Imshow "frame" frame], Broke)
      else let '(effects, status) := capture_loop rest in
           (Imshow "frame" frame :: effects, status)
  end.

(** Lines 15-25: the script.  With no camera found, [cap] is [None] and
    [cap.read()] raises [AttributeError]. *)
Definition script {Frame : Type}
    (enumerate_cameras : Z -> list CameraInfo.t)
    (device : VideoCapture.t -> list (Read Frame))
  : list (Effect Frame) * Status :=
  let '(lines, cap) := find_camera enumerate_cameras 0x0C45 0x6366 CAP_ANY in
  match cap with
  | None => (map Print lines, Raised AttributeError)
  | Some cap =>
      let '(effects, status) := capture_loop (device cap) in
      (map Print lines ++ effects, status)
  end.


(** Turns in which the device delivers a frame: the reads of the frames
    [turns.*1], each followed by the key code next to it. *)
Definition delivered {Frame : Type} (turns : list (Frame * Z))
  : list (Read Frame) :=
  map (fun turn => ReadFrame turn.1 turn.2) turns.

(** Cameras to run the script on. *)
Definition webcam : CameraInfo.t :=
  CameraInfo.mk 0 "Integrated Camera" None
    (Some 0x04F2%Z) (Some 0xB6BE%Z) 1400.
Definition arducam (index : Z) : CameraInfo.t :=
  CameraInfo.mk index "Arducam OV9281" None
    (Some 0x0C45%Z) (Some 0x6366%Z) 1400.
Definition virtual : CameraInfo.t :=
  CameraInfo.mk 3 "Virtual Camera" None None None 700.

End CvTest.

(** * Properties *)

(** ** Float literals and comparison *)

(** The literals are the binary64 quotients 1/100, 2/100, 1/10, 3/2, 2/1
    and 5/2. *)
Example literals_are_correctly_rounded :
  let q (n d : positive) :=
    Pinhole.div (S754_finite false n 0) (S754_finite false d 0) in
  (q 1 100 = F64.lit_0_01 /\ q 2 100 = F64.lit_0_02 /\
   q 1 10 = F64.lit_0_1 /\ q 3 2 = F64.lit_1_5 /\ q 2 1 = F64.lit_2_0 /\
   q 5 2 = F64.lit_2_5 /\ q 1 1 = F64.one)%positive.
Proof. vm_compute. repeat split. Qed.

Lemma ltb_eqb_false (a b : float) : F64.eqb a b = true -> F64.ltb a b = false.
Proof.
  unfold F64.eqb, F64.ltb, SFeqb, SFltb.
  destruct (SFcompare a b) as [[]|]; done.
Qed.

Lemma compare_cont_Lt_flip (p q : positive) :
  Pos.compare_cont Eq p q = Lt -> Pos.compare_cont Eq q p = Gt.
Proof.
  change (Pos.compare_cont Eq p q) with (p ?= q)%positive.
  change (Pos.compare_cont Eq q p) with (q ?= p)%positive.
  intros Hlt. apply Pos.compare_gt_iff. by apply Pos.compare_lt_iff.
Qed.

Lemma compare_cont_Gt_flip (p q : positive) :
  Pos.compare_cont Eq p q = Gt -> Pos.compare_cont Eq q p = Lt.
Proof.
  change (Pos.compare_cont Eq p q) with (p ?= q)%positive.
  change (Pos.compare_cont Eq q p) with (q ?= p)%positive.
  intros Hgt. apply Pos.compare_lt_iff. by apply Pos.compare_gt_iff.
Qed.

Lemma SFcompare_Lt_flip (a b : float) :
  SFcompare a b = Some Lt -> SFcompare b a = Some Gt.
Proof.
  destruct a as [sa|sa| |sa ma ea], b as [sb|sb| |sb mb eb]; simpl;
    try discriminate; try (destruct sa; discriminate);
    try (destruct sb; discriminate);
    try (destruct sa, sb; (discriminate || reflexivity)).
  destruct sa, sb; try discriminate; try reflexivity.
  - rewrite (Z.compare_antisym ea eb).
    destruct (ea ?= eb)%Z eqn:He; simpl; try discriminate; try reflexivity.
    apply Z.compare_eq in He. subst eb.
    destruct (Pos.compare_cont Eq ma mb) eqn:Hm; simpl; try discriminate.
    intros _. by rewrite (compare_cont_Gt_flip _ _ Hm).
  - rewrite (Z.compare_antisym ea eb).
    destruct (ea ?= eb)%Z eqn:He; simpl; try discriminate; try reflexivity.
    apply Z.compare_eq in He. subst eb.
    destruct (Pos.compare_cont Eq ma mb) eqn:Hm; simpl; try discriminate.
    intros _. by rewrite (compare_cont_Lt_flip _ _ Hm).
Qed.

Lemma ltb_asym (a b : float) : F64.ltb a b = true -> F64.ltb b a = false.
Proof.
  unfold F64.ltb, SFltb. intros Hlt.
  destruct (SFcompare a b) as [[]|] eqn:Hc; try discriminate.
  by rewrite (SFcompare_Lt_flip _ _ Hc).
Qed.

(** ** The angle loop *)

Lemma lookup_map_Some {A B} (f : A -> B) (l : list A) (i : nat) (x : A) :
  l !! i = Some x -> map f l !! i = Some (f x).
Proof.
  intros Hat. change (map f l) with (f <$> l).
  by rewrite list_lookup_fmap, Hat.
Qed.

Lemma setitem_row (a : list (float * float)) (i : nat) (v0 v1 : float) :
  i < length a ->
  exc_bind (setitem a i 0 v0) (fun a' => setitem a' i 1 v1)
  = inr (<[i := (v0, v1)]> a).
Proof.
  intros Hi. destruct (lookup_lt_is_Some_2 a i Hi) as [row Hrow].
  unfold exc_bind, setitem. rewrite Hrow.
  rewrite list_lookup_insert_eq by done. simpl.
  by rewrite list_insert_insert_eq.
Qed.

Lemma setitem_out_of_range (a : list (float * float)) (i j : nat) (v : float) :
  length a <= i -> setitem a i j v = inl IndexError.
Proof.
  intros Hi. unfold setitem. by rewrite (lookup_ge_None_2 a i Hi).
Qed.

Section Loop.

Context {St : Type} `{!Externals St}.

Import CameraMatrixTagAngleCalculator.

Lemma corner_vec_inverse K inverse corner :
  np_linalg_inv K = Some inverse ->
  corner_vec K corner = inr (dot inverse (corner.1, corner.2, F64.one)).
Proof. intros HK. unfold corner_vec. by rewrite HK. Qed.

Lemma angle_loop_step K inverse index corner rest a :
  np_linalg_inv K = Some inverse ->
  index < length a ->
  angle_loop K index (corner :: rest) a
  = angle_loop K (S index) rest (<[index := bearing inverse corner]> a).
Proof.
  intros HK Hi. simpl. rewrite (corner_vec_inverse _ _ _ HK). simpl.
  unfold bearing.
  destruct (dot inverse (corner.1, corner.2, F64.one)) as [[x y] z]. simpl.
  pose proof (setitem_row a index (math_atan x) (math_atan y) Hi) as Hrow.
  unfold exc_bind in Hrow.
  destruct (setitem a index 0 (math_atan x)) as [e|a1]; [done|]. simpl.
  by rewrite Hrow.
Qed.

(** With an inverse at hand and room in the array, the loop overwrites
    the rows from [index] on with the bearings, in order. *)
Lemma angle_loop_fits K inverse cs : forall index a,
  np_linalg_inv K = Some inverse ->
  index + length cs <= length a ->
  angle_loop K index cs a
  = inr (take index a ++ map (bearing inverse) cs
           ++ drop (index + length cs) a).
Proof.
  induction cs as [|corner rest IH]; intros index a HK Hlen.
  - simpl. by rewrite Nat.add_0_r, take_drop.
  - simpl in Hlen.
    rewrite (angle_loop_step _ _ _ _ _ _ HK) by lia.
    rewrite IH by (rewrite ?length_insert; done || lia).
    destruct (lookup_lt_is_Some_2 a index ltac:(lia)) as [row Hrow].
    rewrite (take_S_r _ _ (bearing inverse corner))
      by (apply list_lookup_insert_eq; lia).
    rewrite take_insert_ge by lia.
    rewrite drop_insert_lt by lia.
    rewrite <- app_assoc. simpl.
    replace (index + S (length rest)) with (S (index + length rest)) by lia.
    reflexivity.
Qed.

(** The inverse is asked for at the first corner. *)
Lemma angle_loop_singular K index corner rest a :
  np_linalg_inv K = None ->
  angle_loop K index (corner :: rest) a = inl LinAlgError.
Proof. intros HK. simpl. unfold corner_vec. by rewrite HK. Qed.

(** More corners than rows: the write of the first row that does not
    exist raises. *)
Lemma angle_loop_overflows K inverse cs : forall index a,
  np_linalg_inv K = Some inverse ->
  index <= length a ->
  length a < index + length cs ->
  angle_loop K index cs a = inl IndexError.
Proof.
  induction cs as [|corner rest IH]; intros index a HK Hle Hlen.
  - simpl in Hlen. lia.
  - simpl in Hlen. destruct (decide (index < length a)) as [Hlt|Hge].
    + rewrite (angle_loop_step _ _ _ _ _ _ HK) by done.
      apply IH; rewrite ?length_insert; done || lia.
    + simpl. rewrite (corner_vec_inverse _ _ _ HK). simpl.
      by rewrite setitem_out_of_range by lia.
Qed.

Lemma calc_angles_fits K inverse cs :
  np_linalg_inv K = Some inverse ->
  length cs <= 4 ->
  calc_angles K (Some cs)
  = inr (map (bearing inverse) cs ++ np_zeros (4 - length cs)).
Proof.
  intros HK Hlen. unfold calc_angles.
  rewrite (angle_loop_fits _ _ _ _ _ HK)
    by (unfold np_zeros; rewrite length_replicate; simpl; lia).
  simpl. unfold np_zeros. by rewrite drop_replicate.
Qed.

Lemma calc_angles_overflows K inverse cs :
  np_linalg_inv K = Some inverse ->
  4 < length cs ->
  calc_angles K (Some cs) = inl IndexError.
Proof.
  intros HK Hlen. unfold calc_angles.
  apply (angle_loop_overflows _ _ _ _ _ HK);
    unfold np_zeros; rewrite length_replicate; simpl; lia.
Qed.

End Loop.

(** ** Runs of [calc_tag_angles] *)

Section Runs.

Context {St : Type} `{!Externals St}.

Import CameraMatrixTagAngleCalculator.

(** The method is the angle stage, then the solver, then the choice of
    the distance. *)
Lemma calc_tag_angles_stages image_observation config_store s :
  calc_tag_angles image_observation config_store s =
  match angle_stage image_observation config_store with
  | inl e => (inl e, s)
  | inr rows =>
      match solve_fiducial_pose image_observation config_store s with
      | (inl e, s') => (inl e, s')
      | (inr pose_observation, s') =>
          (inr (TagAngleObservation.mk
                  (FiducialImageObservation.tag_id image_observation)
                  rows (select_distance pose_observation)), s')
      end
  end.
Proof.
  unfold calc_tag_angles, angle_stage, bind, lift, ret, exc_bind.
  destruct (cv2_undistortPoints _ _ _ _) as [e|und]; [done|].
  destruct (calc_angles _ und) as [e|rows]; [done|].
  by destruct (solve_fiducial_pose _ _ s) as [[e|p] s'].
Qed.

(** A returned observation comes from a completed angle stage and an
    answer of the solver. *)
Lemma calc_tag_angles_returned image_observation config_store s out s' :
  calc_tag_angles image_observation config_store s = (inr out, s') ->
  exists rows pose_observation,
    angle_stage image_observation config_store = inr rows /\
    solve_fiducial_pose image_observation config_store s
    = (inr pose_observation, s') /\
    out = TagAngleObservation.mk
            (FiducialImageObservation.tag_id image_observation)
            rows (select_distance pose_observation).
Proof.
  rewrite calc_tag_angles_stages.
  destruct (angle_stage _ _) as [e|rows]; [done|].
  destruct (solve_fiducial_pose _ _ s) as [[e|p] s1]; [done|].
  intros [= <- <-]. by exists rows, p.
Qed.

(** The angle stage, case by case: no corner, corners that OpenCV
    rejects, a camera matrix that NumPy rejects, more than four corners,
    and one to four corners. *)
Lemma angle_stage_eq image_observation config_store :
  let K := LocalConfig.camera_matrix
             (ConfigStore.local_config config_store) in
  let D := LocalConfig.distortion_coefficients
             (ConfigStore.local_config config_store) in
  let cs := FiducialImageObservation.corners image_observation in
  angle_stage image_observation config_store =
  match cs with
  | [] => inl TypeError
  | _ :: _ =>
      if cv2_accepts cs K D K
      then match np_linalg_inv K with
           | None => inl LinAlgError
           | Some inverse =>
               if decide (length cs <= 4)
               then inr (map (bearing inverse)
                             (map (cv2_undistort_point K D K) cs)
                           ++ np_zeros (4 - length cs))
               else inl IndexError
           end
      else inl cv2_error
  end.
Proof.
  intros K D cs. unfold angle_stage, cv2_undistortPoints. fold K D cs.
  destruct cs as [|corner rest] eqn:Hcs; [done|]. rewrite <- Hcs.
  destruct (cv2_accepts cs K D K); [|done]. unfold exc_bind.
  destruct (np_linalg_inv K) as [inverse|] eqn:HK.
  - destruct (decide (length cs <= 4)) as [Hle|Hgt].
    + rewrite (calc_angles_fits _ _ _ HK) by (by rewrite length_map).
      by rewrite length_map.
    + by rewrite (calc_angles_overflows _ _ _ HK)
        by (rewrite length_map; lia).
  - rewrite Hcs. unfold calc_angles. simpl map.
    by rewrite (angle_loop_singular _ _ _ _ _ HK).
Qed.

(** When the angle stage completes, there was a corner, OpenCV accepted
    the corners, at most four came back and the inverse exists; the rows
    are the bearings of the undistorted corners in order, then rows of
    zeros up to four. *)
Lemma angle_stage_returned image_observation config_store rows :
  angle_stage image_observation config_store = inr rows ->
  let K := LocalConfig.camera_matrix
             (ConfigStore.local_config config_store) in
  let D := LocalConfig.distortion_coefficients
             (ConfigStore.local_config config_store) in
  let cs := FiducialImageObservation.corners image_observation in
  cs <> [] /\
  cv2_accepts cs K D K = true /\
  length cs <= 4 /\
  exists inverse,
    np_linalg_inv K = Some inverse /\
    rows = map (bearing inverse) (map (cv2_undistort_point K D K) cs)
             ++ np_zeros (4 - length cs).
Proof.
  intros Hrun K D cs. rewrite angle_stage_eq in Hrun. fold K D cs in Hrun.
  destruct cs as [|corner rest] eqn:Hcs; [done|]. rewrite <- Hcs in *.
  destruct (cv2_accepts cs K D K); [|done].
  destruct (np_linalg_inv K) as [inverse|]; [|done].
  destruct (decide (length cs <= 4)) as [Hle|]; [|done].
  injection Hrun as <-. repeat split; try done.
  - by rewrite Hcs.
  - by exists inverse.
Qed.

Lemma angle_stage_rows image_observation config_store inverse :
  let K := LocalConfig.camera_matrix
             (ConfigStore.local_config config_store) in
  let D := LocalConfig.distortion_coefficients
             (ConfigStore.local_config config_store) in
  let cs := FiducialImageObservation.corners image_observation in
  cs <> [] ->
  cv2_accepts cs K D K = true ->
  np_linalg_inv K = Some inverse ->
  length cs <= 4 ->
  angle_stage image_observation config_store
  = inr (map (bearing inverse) (map (cv2_undistort_point K D K) cs)
           ++ np_zeros (4 - length cs)).
Proof.
  intros K D cs Hne Hacc HK Hlen. rewrite angle_stage_eq. fold K D cs.
  destruct cs as [|corner rest] eqn:Hcs; [done|]. rewrite <- Hcs in *.
  rewrite Hacc, HK. by destruct (decide (length cs <= 4)).
Qed.


(** The shape of the rows of a completed angle stage. *)
Lemma angle_stage_shape image_observation config_store inverse :
  let K := LocalConfig.camera_matrix
             (ConfigStore.local_config config_store) in
  let D := LocalConfig.distortion_coefficients
             (ConfigStore.local_config config_store) in
  let cs := FiducialImageObservation.corners image_observation in
  cs <> [] ->
  cv2_accepts cs K D K = true ->
  length cs <= 4 ->
  np_linalg_inv K = Some inverse ->
  exists rows,
    angle_stage image_observation config_store = inr rows /\
    length rows = 4 /\
    (forall i, length cs <= i < 4 -> rows !! i = Some (F64.zero, F64.zero)) /\
    (forall i corner,
       cs !! i = Some corner ->
       rows !! i = Some (bearing inverse (cv2_undistort_point K D K corner))).
Proof.
  intros K D cs Hne Hacc Hlen HK.
  eexists. split; [by apply (angle_stage_rows _ _ inverse)|].
  fold K D cs. split; [|split].
  - rewrite length_app, !length_map. unfold np_zeros.
    rewrite length_replicate. lia.
  - intros i [Hlo Hhi].
    rewrite lookup_app_r by (by rewrite !length_map).
    rewrite !length_map. unfold np_zeros.
    apply lookup_replicate_2. lia.
  - intros i corner Hat.
    rewrite lookup_app_l
      by (rewrite !length_map; by apply lookup_lt_Some in Hat).
    by do 2 apply lookup_map_Some.
Qed.

(** The run gets to the call of the solver exactly when there is a
    corner, OpenCV accepts the corners, there are at most four, and the
    inverse exists. *)
Lemma solver_reached_iff image_observation config_store :
  let K := LocalConfig.camera_matrix
             (ConfigStore.local_config config_store) in
  let D := LocalConfig.distortion_coefficients
             (ConfigStore.local_config config_store) in
  let cs := FiducialImageObservation.corners image_observation in
  (exists rows, angle_stage image_observation config_store = inr rows) <->
  cs <> [] /\ cv2_accepts cs K D K = true /\ length cs <= 4 /\
  is_Some (np_linalg_inv K).
Proof.
  intros K D cs. split.
  - intros [rows Hstage].
    destruct (angle_stage_returned _ _ _ Hstage)
      as (Hne & Hacc & Hlen & inverse & HK & _).
    split; [done|]. split; [done|]. split; [done|]. by exists inverse.
  - intros (Hne & Hacc & Hlen & [inverse HK]).
    eexists. by apply (angle_stage_rows _ _ inverse).
Qed.

End Runs.

Lemma ltb_irrefl (a : float) : F64.ltb a a = false.
Proof.
  unfold F64.ltb, SFltb.
  destruct a as [sa|sa| |sa ma ea]; simpl; try done; try (by destruct sa).
  destruct sa; rewrite Z.compare_refl;
    change (Pos.compare_cont Eq ma ma) with (ma ?= ma)%positive;
    by rewrite Pos.compare_refl.
Qed.

(** ** The claims: choice of the distance *)

Section Distance.

Context {St : Type} `{!Externals St}.

Import CameraMatrixTagAngleCalculator.

Lemma returned_distance image_observation config_store s
    pose_observation s1 out s2 :
  solve_fiducial_pose image_observation config_store s
  = (inr pose_observation, s1) ->
  calc_tag_angles image_observation config_store s = (inr out, s2) ->
  TagAngleObservation.distance out = select_distance pose_observation.
Proof.
  intros Hsolve Hrun.
  destruct (calc_tag_angles_returned _ _ _ _ _ Hrun)
    as (rows & p & _ & Hsolve' & ->).
  rewrite Hsolve in Hsolve'. by injection Hsolve' as <- _.
Qed.

(** C1, as the code has it.  For every pose observation whose two
    fit-errors are equal (as [==] compares them, or as identical values),
    the comparison [error_0 < error_1] is false and the [else] branch
    runs: the returned distance is the norm of the translation of
    hypothesis 1. *)
Theorem equal_errors_select_hypothesis_1 image_observation config_store s
    pose_observation s1 out s2 :
  solve_fiducial_pose image_observation config_store s
  = (inr pose_observation, s1) ->
  F64.eqb (FiducialPoseObservation.error_0 pose_observation)
          (FiducialPoseObservation.error_1 pose_observation) = true
  \/ FiducialPoseObservation.error_0 pose_observation
     = FiducialPoseObservation.error_1 pose_observation ->
  calc_tag_angles image_observation config_store s = (inr out, s2) ->
  TagAngleObservation.distance out
  = norm (Pose3d.translation
            (FiducialPoseObservation.pose_1 pose_observation)).
Proof.
  intros Hsolve Heq Hrun.
  rewrite (returned_distance _ _ _ _ _ _ _ Hsolve Hrun).
  unfold select_distance.
  destruct Heq as [Heq|Heq].
  - by rewrite (ltb_eqb_false _ _ Heq).
  - by rewrite Heq, ltb_irrefl.
Qed.

(** C2.  For every pose observation, the returned distance is the norm
    of the translation of the hypothesis with the strictly lower
    fit-error: hypothesis 0 when [error_0 < error_1], hypothesis 1 when
    [error_1 < error_0].  In particular norms 2.0 (error 0.01) and 2.5
    (error 0.02) give the distance 2.0. *)
Theorem lower_error_selects_distance image_observation config_store s
    pose_observation s1 out s2 :
  solve_fiducial_pose image_observation config_store s
  = (inr pose_observation, s1) ->
  calc_tag_angles image_observation config_store s = (inr out, s2) ->
  let error_0 := FiducialPoseObservation.error_0 pose_observation in
  let error_1 := FiducialPoseObservation.error_1 pose_observation in
  let norm_0 := norm (Pose3d.translation
                        (FiducialPoseObservation.pose_0 pose_observation)) in
  let norm_1 := norm (Pose3d.translation
                        (FiducialPoseObservation.pose_1 pose_observation)) in
  (F64.ltb error_0 error_1 = true ->
   TagAngleObservation.distance out = norm_0) /\
  (F64.ltb error_1 error_0 = true ->
   TagAngleObservation.distance out = norm_1) /\
  (error_0 = F64.lit_0_01 -> error_1 = F64.lit_0_02 ->
   norm_0 = F64.lit_2_0 -> norm_1 = F64.lit_2_5 ->
   TagAngleObservation.distance out = F64.lit_2_0).
Proof.
  intros Hsolve Hrun error_0 error_1 norm_0 norm_1.
  rewrite (returned_distance _ _ _ _ _ _ _ Hsolve Hrun).
  unfold select_distance. fold error_0 error_1 norm_0 norm_1.
  split; [|split].
  - by intros ->.
  - intros Hlt. by rewrite (ltb_asym _ _ Hlt).
  - intros -> -> Hn0 _. by rewrite <- Hn0.
Qed.

End Distance.

(** ** The claims: bearings *)

Section Bearings.

Context {St : Type} `{!Externals St}.

Import CameraMatrixTagAngleCalculator.

(** The rows of a returned observation. *)
Lemma returned_rows image_observation config_store s out s' :
  calc_tag_angles image_observation config_store s = (inr out, s') ->
  let K := LocalConfig.camera_matrix
             (ConfigStore.local_config config_store) in
  let D := LocalConfig.distortion_coefficients
             (ConfigStore.local_config config_store) in
  let cs := FiducialImageObservation.corners image_observation in
  length cs <= 4 /\
  (cs = [] /\ TagAngleObservation.corners out = np_zeros 4 \/
   exists inverse,
     np_linalg_inv K = Some inverse /\
     TagAngleObservation.corners out
     = map (bearing inverse) (map (cv2_undistort_point K D K) cs)
         ++ np_zeros (4 - length cs)).
Proof.
  intros Hrun K D cs.
  destruct (calc_tag_angles_returned _ _ _ _ _ Hrun)
    as (rows & p & Hstage & _ & ->). simpl.
  destruct (angle_stage_returned _ _ _ Hstage)
    as (_ & _ & Hlen & inverse & HK & ->).
  split; [done|]. right. by exists inverse.
Qed.

(** C3.  In a returned observation, the row of every undistorted corner
    [(u, v)] is [(atan x, atan y)], where [(x, y, z)] is the inverse
    camera matrix applied to [(u, v, 1)].  With the identity camera
    matrix and zero distortion (NumPy inverting the identity to itself
    and OpenCV leaving the point unchanged there), a corner at
    [(-0.1, -0.1)] has the row [(atan(-0.1), atan(-0.1))]. *)
Theorem bearing_is_atan_of_inverse_ray image_observation config_store s
    out s' :
  calc_tag_angles image_observation config_store s = (inr out, s') ->
  let K := LocalConfig.camera_matrix
             (ConfigStore.local_config config_store) in
  let D := LocalConfig.distortion_coefficients
             (ConfigStore.local_config config_store) in
  let corners_undistorted :=
    map (cv2_undistort_point K D K)
        (FiducialImageObservation.corners image_observation) in
  (forall index u v,
     corners_undistorted !! index = Some (u, v) ->
     exists inverse x y z,
       np_linalg_inv K = Some inverse /\
       dot inverse (u, v, F64.one) = (x, y, z) /\
       TagAngleObservation.corners out !! index
       = Some (math_atan x, math_atan y)) /\
  (K = identity3 ->
   zero_distortion D ->
   np_linalg_inv identity3 = Some identity3 ->
   cv2_undistort_point identity3 D identity3
     (F64.neg F64.lit_0_1, F64.neg F64.lit_0_1)
   = (F64.neg F64.lit_0_1, F64.neg F64.lit_0_1) ->
   forall index,
     FiducialImageObservation.corners image_observation !! index
     = Some (F64.neg F64.lit_0_1, F64.neg F64.lit_0_1) ->
     TagAngleObservation.corners out !! index
     = Some (math_atan (F64.neg F64.lit_0_1),
             math_atan (F64.neg F64.lit_0_1))).
Proof.
  intros Hrun K D und.
  destruct (returned_rows _ _ _ _ _ Hrun) as [Hlen Hrows].
  fold K D in Hrows.
  assert (Hgeneral : forall index u v,
     und !! index = Some (u, v) ->
     exists inverse,
       np_linalg_inv K = Some inverse /\
       TagAngleObservation.corners out !! index
       = Some (bearing inverse (u, v))).
  { intros index u v Hat.
    destruct Hrows as [[Hnil _]|(inverse & HK & ->)].
    - subst und. by rewrite Hnil in Hat.
    - exists inverse. split; [done|]. fold und.
      rewrite lookup_app_l
        by (rewrite length_map; by apply lookup_lt_Some in Hat).
      by apply lookup_map_Some. }
  split.
  - intros index u v Hat.
    destruct (Hgeneral index u v Hat) as (inverse & HK & Hrow).
    unfold bearing in Hrow. simpl in Hrow.
    destruct (dot inverse (u, v, F64.one)) as [[x y] z] eqn:Hdot.
    by exists inverse, x, y, z.
  - intros HK _ Hinv Hid index Hat.
    destruct (Hgeneral index (F64.neg F64.lit_0_1) (F64.neg F64.lit_0_1))
      as (inverse & HK' & Hrow).
    { subst und. rewrite (lookup_map_Some _ _ _ _ Hat).
      by rewrite HK, Hid. }
    rewrite HK, Hinv in HK'. injection HK' as <-.
    by rewrite Hrow.
Qed.

(** C8.  For every input of four corners, the rows of the returned
    observation keep the corner order: row [i] is the bearing of the
    undistorted image of input corner [i], for each [i] in 0..3. *)
Theorem bearings_keep_corner_order image_observation config_store s
    out s' :
  length (FiducialImageObservation.corners image_observation) = 4 ->
  calc_tag_angles image_observation config_store s = (inr out, s') ->
  let K := LocalConfig.camera_matrix
             (ConfigStore.local_config config_store) in
  let D := LocalConfig.distortion_coefficients
             (ConfigStore.local_config config_store) in
  exists inverse,
    np_linalg_inv K = Some inverse /\
    length (TagAngleObservation.corners out) = 4 /\
    forall i corner,
      FiducialImageObservation.corners image_observation !! i
      = Some corner ->
      TagAngleObservation.corners out !! i
      = Some (bearing inverse (cv2_undistort_point K D K corner)).
Proof.
  intros Hfour Hrun K D.
  destruct (returned_rows _ _ _ _ _ Hrun) as [_ Hrows]. fold K D in Hrows.
  destruct Hrows as [[Hnil _]|(inverse & HK & Hrows)].
  - by rewrite Hnil in Hfour.
  - exists inverse. split; [done|]. rewrite Hrows, Hfour. simpl.
    rewrite app_nil_r. split; [by rewrite !length_map|].
    intros i corner Hat. by do 2 apply lookup_map_Some.
Qed.

(** C10, as the code has it.  For every image observation with at least
    one and fewer than four corners, when OpenCV accepts the corners,
    NumPy inverts the camera matrix and the pose solver answers, the
    method does not raise: it returns an observation of exactly four
    rows, the rows of the supplied corners holding their bearings in
    order and each row beyond them [(0.0, 0.0)]. *)
Theorem fewer_corners_leave_zero_rows image_observation config_store s
    inverse pose_observation s' :
  let K := LocalConfig.camera_matrix
             (ConfigStore.local_config config_store) in
  let D := LocalConfig.distortion_coefficients
             (ConfigStore.local_config config_store) in
  let cs := FiducialImageObservation.corners image_observation in
  0 < length cs < 4 ->
  cv2_accepts cs K D K = true ->
  np_linalg_inv K = Some inverse ->
  solve_fiducial_pose image_observation config_store s
  = (inr pose_observation, s') ->
  exists out,
    calc_tag_angles image_observation config_store s = (inr out, s') /\
    length (TagAngleObservation.corners out) = 4 /\
    (forall i, length cs <= i < 4 ->
       TagAngleObservation.corners out !! i = Some (F64.zero, F64.zero)) /\
    (forall i corner,
       cs !! i = Some corner ->
       TagAngleObservation.corners out !! i
       = Some (bearing inverse (cv2_undistort_point K D K corner))).
Proof.
  intros K D cs [Hpos Hlen] Hacc HK Hsolve.
  destruct (angle_stage_shape image_observation config_store inverse)
    as (rows & Hstage & Hfour & Hzero & Hbearing);
    fold K D cs; try done; try lia.
  { intros Hnil. rewrite Hnil in Hpos. simpl in Hpos. lia. }
  eexists. rewrite calc_tag_angles_stages, Hstage, Hsolve.
  split; [reflexivity|]. simpl. by repeat split.
Qed.

End Bearings.

(** ** The claims: errors *)

Section Errors.

Context {St : Type} `{!Externals St}.

Import CameraMatrixTagAngleCalculator.

(** C4, as the code has it.  For every calibration whose camera matrix
    [np.linalg.inv] rejects, when OpenCV accepts the corners and there is
    at least one, the method raises NumPy's [LinAlgError] at the first
    corner, before the solver is called, and returns no observation.
    [LinAlgError] is not [InvalidCalibration]. *)
Theorem rejected_matrix_raises_LinAlgError image_observation config_store
    s :
  let K := LocalConfig.camera_matrix
             (ConfigStore.local_config config_store) in
  let D := LocalConfig.distortion_coefficients
             (ConfigStore.local_config config_store) in
  let cs := FiducialImageObservation.corners image_observation in
  np_linalg_inv K = None ->
  cv2_accepts cs K D K = true ->
  cs <> [] ->
  calc_tag_angles image_observation config_store s = (inl LinAlgError, s) /\
  LinAlgError <> InvalidCalibration.
Proof.
  intros K D cs HK Hacc Hne. split; [|done].
  rewrite calc_tag_angles_stages, angle_stage_eq. fold K D cs.
  destruct cs as [|corner rest] eqn:Hcs; [done|]. rewrite <- Hcs in *.
  by rewrite Hacc, HK.
Qed.


(** C9.  For every input on which the pose solver fails, the method
    emits no observation; and whenever the run gets to the solver (the
    angle stage before it has completed), the solver's exception is what
    the method raises, unchanged, with the estimator as the solver left
    it. *)
Theorem solver_failure_propagates image_observation config_store s e s1 :
  solve_fiducial_pose image_observation config_store s = (inl e, s1) ->
  (forall out s2,
     calc_tag_angles image_observation config_store s <> (inr out, s2)) /\
  (forall rows,
     angle_stage image_observation config_store = inr rows ->
     calc_tag_angles image_observation config_store s = (inl e, s1)).
Proof.
  intros Hsolve. rewrite calc_tag_angles_stages.
  destruct (angle_stage _ _) as [e0|rows]; [by split|].
  rewrite Hsolve. by split.
Qed.

End Errors.

(** ** The claims at concrete inputs *)

Section Concrete.

Import CameraMatrixTagAngleCalculator Pinhole.

Lemma equal_errors_select_hypothesis_1_witness :
  TagAngleObservation.distance (expected square F64.lit_2_5)
  = norm (Externals := replaying tie)
      (Pose3d.translation (FiducialPoseObservation.pose_1 tie)).
Proof.
  apply (@equal_errors_select_hypothesis_1 nat (replaying tie)
           (observation square) (calibration identity3) 0 tie 1
           (expected square F64.lit_2_5) 1).
  - reflexivity.
  - left. reflexivity.
  - vm_compute. reflexivity.
Defined.

(** C1 fails on the code: with both fit-errors 0.01, hypothesis 0 at
    norm 2.0 and hypothesis 1 at norm 2.5, the returned distance is
    2.5. *)
Lemma equal_errors_do_not_select_hypothesis_0 :
  F64.eqb (FiducialPoseObservation.error_0 tie)
          (FiducialPoseObservation.error_1 tie) = true /\
  calc_tag_angles (Externals0 := replaying tie)
    (observation square) (calibration identity3) 0
  = (inr (expected square F64.lit_2_5), 1) /\
  TagAngleObservation.distance (expected square F64.lit_2_5)
  <> norm (Externals := replaying tie)
       (Pose3d.translation (FiducialPoseObservation.pose_0 tie)).
Proof.
  split; [reflexivity|]. split; [vm_compute; reflexivity|].
  vm_compute. discriminate.
Qed.

Lemma lower_error_selects_distance_witness :
  TagAngleObservation.distance (expected square F64.lit_2_0)
  = norm (Externals := replaying clear)
      (Pose3d.translation (FiducialPoseObservation.pose_0 clear)) /\
  TagAngleObservation.distance (expected square F64.lit_2_0) = F64.lit_2_0.
Proof.
  destruct (@lower_error_selects_distance nat (replaying clear)
              (observation square) (calibration identity3) 0 clear 1
              (expected square F64.lit_2_0) 1)
    as (Hlow & _ & Hscenario).
  - reflexivity.
  - vm_compute. reflexivity.
  - split.
    + apply Hlow. reflexivity.
    + apply Hscenario; vm_compute; reflexivity.
Defined.

Lemma bearing_is_atan_of_inverse_ray_witness :
  rows square !! 0 = Some (atan_series m01, atan_series m01).
Proof.
  apply (proj2 (@bearing_is_atan_of_inverse_ray nat (replaying clear)
                  (observation square) (calibration identity3) 0
                  (expected square F64.lit_2_0) 1
                  ltac:(vm_compute; reflexivity))).
  - reflexivity.
  - repeat constructor.
  - vm_compute. reflexivity.
  - reflexivity.
  - reflexivity.
Defined.

Lemma bearings_keep_corner_order_witness :
  exists inverse,
    inv identity3 = Some inverse /\
    length (rows square) = 4 /\
    forall i corner,
      square !! i = Some corner ->
      rows square !! i
      = Some (bearing (Externals0 := replaying clear) inverse corner).
Proof.
  apply (@bearings_keep_corner_order nat (replaying clear)
           (observation square) (calibration identity3) 0
           (expected square F64.lit_2_0) 1).
  - reflexivity.
  - vm_compute. reflexivity.
Defined.

Lemma fewer_corners_leave_zero_rows_witness :
  exists out,
    calc_tag_angles (Externals0 := replaying clear)
      (observation (take 3 square)) (calibration identity3) 0
    = (inr out, 1) /\
    length (TagAngleObservation.corners out) = 4 /\
    (forall i, 3 <= i < 4 ->
       TagAngleObservation.corners out !! i = Some (F64.zero, F64.zero)) /\
    (forall i corner,
       take 3 square !! i = Some corner ->
       TagAngleObservation.corners out !! i
       = Some (bearing (Externals0 := replaying clear) identity3 corner)).
Proof.
  apply (@fewer_corners_leave_zero_rows nat (replaying clear)
           (observation (take 3 square)) (calibration identity3) 0
           identity3 clear 1).
  - simpl. lia.
  - reflexivity.
  - vm_compute. reflexivity.
  - reflexivity.
Defined.

(** C10 fails on the code as it is worded, in two ways.  Three corners, a
    solver that answers and the zero camera matrix raise [LinAlgError] at
    the first corner; no corner at all, a solver that answers and the
    identity camera matrix raise [TypeError].  Neither run gets to the
    solver: the estimator is left as it was. *)
Lemma fewer_corners_may_raise :
  (length (FiducialImageObservation.corners (observation (take 3 square)))
   < 4 /\
   solve_fiducial_pose (Externals := replaying clear)
     (observation (take 3 square)) (calibration zeros3) 0
   = (inr clear, 1) /\
   calc_tag_angles (Externals0 := replaying clear)
     (observation (take 3 square)) (calibration zeros3) 0
   = (inl LinAlgError, 0)) /\
  (length (FiducialImageObservation.corners (observation [])) < 4 /\
   solve_fiducial_pose (Externals := replaying clear)
     (observation []) (calibration identity3) 0
   = (inr clear, 1) /\
   calc_tag_angles (Externals0 := replaying clear)
     (observation []) (calibration identity3) 0
   = (inl TypeError, 0)).
Proof.
  split; (split; [simpl; lia|]); (split; [reflexivity|]);
    vm_compute; reflexivity.
Qed.

Lemma rejected_matrix_raises_LinAlgError_witness :
  calc_tag_angles (Externals0 := replaying clear)
    (observation square) (calibration zeros3) 0
  = (inl LinAlgError, 0) /\
  LinAlgError <> InvalidCalibration.
Proof.
  apply (@rejected_matrix_raises_LinAlgError nat (replaying clear)
           (observation square) (calibration zeros3) 0).
  - vm_compute. reflexivity.
  - reflexivity.
  - discriminate.
Defined.

(** C4 fails on the code: the zero camera matrix, which is singular,
    makes the method raise [LinAlgError], not [InvalidCalibration]. *)
Lemma singular_matrix_does_not_raise_InvalidCalibration :
  LocalConfig.camera_matrix
    (ConfigStore.local_config (calibration zeros3)) = zeros3 /\
  calc_tag_angles (Externals0 := replaying clear)
    (observation square) (calibration zeros3) 0
  = (inl LinAlgError, 0) /\
  (inl LinAlgError, 0)
  <> (inl InvalidCalibration : Exc TagAngleObservation.t, 0).
Proof.
  split; [reflexivity|]. split; [vm_compute; reflexivity|]. discriminate.
Qed.



Lemma solver_failure_propagates_witness :
  calc_tag_angles (Externals0 := failing PoseSolveFailure)
    (observation square) (calibration identity3) 0
  = (inl PoseSolveFailure, 1).
Proof.
  apply (proj2 (@solver_failure_propagates nat (failing PoseSolveFailure)
                  (observation square) (calibration identity3) 0
                  PoseSolveFailure 1 ltac:(reflexivity))
           (rows square)).
  vm_compute. reflexivity.
Defined.

End Concrete.

(** * Further properties of [calc_tag_angles] *)

Lemma ltb_nan_l (a : float) : F64.ltb S754_nan a = false.
Proof. reflexivity. Qed.

Lemma ltb_nan_r (a : float) : F64.ltb a S754_nan = false.
Proof. by destruct a. Qed.

Section Coverage.

Context {St : Type} `{!Externals St}.

Import CameraMatrixTagAngleCalculator.

(** Why the angle stage raises. *)
Lemma angle_stage_raised image_observation config_store e :
  angle_stage image_observation config_store = inl e ->
  let K := LocalConfig.camera_matrix
             (ConfigStore.local_config config_store) in
  let D := LocalConfig.distortion_coefficients
             (ConfigStore.local_config config_store) in
  let cs := FiducialImageObservation.corners image_observation in
  e = TypeError /\ cs = [] \/
  e = cv2_error /\ cs <> [] /\ cv2_accepts cs K D K = false \/
  e = LinAlgError /\ cv2_accepts cs K D K = true /\ cs <> [] /\
    np_linalg_inv K = None \/
  e = IndexError /\ cv2_accepts cs K D K = true /\
    is_Some (np_linalg_inv K) /\ 4 < length cs.
Proof.
  intros Hraise K D cs. rewrite angle_stage_eq in Hraise.
  fold K D cs in Hraise.
  destruct cs as [|corner rest] eqn:Hcs.
  { left. by injection Hraise as <-. }
  rewrite <- Hcs in *. right.
  assert (Hne : cs <> []) by (by rewrite Hcs).
  destruct (cv2_accepts cs K D K).
  - right. destruct (np_linalg_inv K) as [inverse|] eqn:HK.
    + right. destruct (decide (length cs <= 4)) as [Hle|Hgt]; [done|].
      injection Hraise as <-.
      split; [done|]. split; [done|]. split; [by exists inverse|lia].
    + left. by injection Hraise as <-.
  - left. by injection Hraise as <-.
Qed.

(** X1.  Whatever the method raises is [TypeError] (there was no corner,
    [cv2.undistortPoints] returned [None]), OpenCV's [cv2.error] (the
    corners were rejected), NumPy's [LinAlgError] (the camera matrix was
    rejected), [IndexError] (more than four corners, the matrix
    inverted), each with the estimator untouched, or else the exception
    of the pose solver, called once the angle stage was through. *)
Theorem raised_exception_origin image_observation config_store s e s' :
  calc_tag_angles image_observation config_store s = (inl e, s') ->
  let K := LocalConfig.camera_matrix
             (ConfigStore.local_config config_store) in
  let D := LocalConfig.distortion_coefficients
             (ConfigStore.local_config config_store) in
  let cs := FiducialImageObservation.corners image_observation in
  e = TypeError /\ cs = [] /\ s' = s \/
  e = cv2_error /\ cs <> [] /\ cv2_accepts cs K D K = false /\ s' = s \/
  e = LinAlgError /\ cv2_accepts cs K D K = true /\ cs <> [] /\
    np_linalg_inv K = None /\ s' = s \/
  e = IndexError /\ cv2_accepts cs K D K = true /\
    is_Some (np_linalg_inv K) /\ 4 < length cs /\ s' = s \/
  solve_fiducial_pose image_observation config_store s = (inl e, s') /\
    cs <> [] /\ cv2_accepts cs K D K = true /\ length cs <= 4 /\
    is_Some (np_linalg_inv K).
Proof.
  intros Hrun K D cs. rewrite calc_tag_angles_stages in Hrun.
  destruct (angle_stage image_observation config_store) as [e0|rows] eqn:Hstage.
  - injection Hrun as <- <-.
    destruct (angle_stage_raised _ _ _ Hstage)
      as [[-> ?]|[(-> & ? & ?)|[(-> & ? & ? & ?)|(-> & ? & ? & ?)]]].
    + by left.
    + right. by left.
    + right. right. by left.
    + right. right. right. by left.
  - right. right. right. right.
    destruct (solve_fiducial_pose _ _ s) as [[e1|p] s1] eqn:Hsolve; [|done].
    injection Hrun as <- <-. split; [done|].
    by apply (proj1 (solver_reached_iff image_observation config_store));
      exists rows.
Qed.

(** X2.  The method returns an observation exactly when there is at
    least one corner, OpenCV accepts the corners, there are at most four
    of them, the camera matrix is inverted and the pose solver
    answers. *)
Theorem returns_observation_iff image_observation config_store s :
  let K := LocalConfig.camera_matrix
             (ConfigStore.local_config config_store) in
  let D := LocalConfig.distortion_coefficients
             (ConfigStore.local_config config_store) in
  let cs := FiducialImageObservation.corners image_observation in
  (exists out s',
     calc_tag_angles image_observation config_store s = (inr out, s')) <->
  cs <> [] /\ cv2_accepts cs K D K = true /\ length cs <= 4 /\
  is_Some (np_linalg_inv K) /\
  exists pose_observation s',
    solve_fiducial_pose image_observation config_store s
    = (inr pose_observation, s').
Proof.
  intros K D cs. split.
  - intros (out & s' & Hrun).
    destruct (calc_tag_angles_returned _ _ _ _ _ Hrun)
      as (rows & p & Hstage & Hsolve & _).
    destruct (proj1 (solver_reached_iff image_observation config_store))
      as (Hne & Hacc & Hlen & Hinv); [by exists rows|].
    split; [done|]. split; [done|]. split; [done|]. split; [done|].
    by exists p, s'.
  - intros (Hne & Hacc & Hlen & Hinv & p & s' & Hsolve).
    destruct (proj2 (solver_reached_iff image_observation config_store))
      as [rows Hstage]; [done|].
    eexists _, s'. by rewrite calc_tag_angles_stages, Hstage, Hsolve.
Qed.

(** X3.  Every returned observation has exactly four rows, whatever the
    number of corners (which then was at most four), and every row
    without a corner is [(0.0, 0.0)]. *)
Theorem returned_observation_has_four_rows image_observation config_store
    s out s' :
  calc_tag_angles image_observation config_store s = (inr out, s') ->
  let cs := FiducialImageObservation.corners image_observation in
  length (TagAngleObservation.corners out) = 4 /\
  length cs <= 4 /\
  forall i, length cs <= i < 4 ->
    TagAngleObservation.corners out !! i = Some (F64.zero, F64.zero).
Proof.
  intros Hrun cs.
  destruct (returned_rows _ _ _ _ _ Hrun) as [Hlen Hrows]. fold cs in Hlen.
  split; [|split; [done|]].
  - destruct Hrows as [[_ ->]|(inverse & _ & ->)]; [done|].
    rewrite length_app, !length_map. unfold np_zeros.
    rewrite length_replicate. fold cs. lia.
  - intros i [Hlo Hhi].
    destruct Hrows as [[Hnil ->]|(inverse & _ & ->)].
    + unfold np_zeros. by apply lookup_replicate_2.
    + rewrite lookup_app_r by (by rewrite !length_map).
      rewrite !length_map. unfold np_zeros.
      apply lookup_replicate_2. fold cs. lia.
Qed.

(** X4.  A fit-error that is not a number makes the comparison false:
    when either fit-error is NaN, the returned distance is the norm of
    the translation of hypothesis 1. *)
Theorem nan_error_selects_hypothesis_1 image_observation config_store s
    pose_observation s1 out s2 :
  solve_fiducial_pose image_observation config_store s
  = (inr pose_observation, s1) ->
  FiducialPoseObservation.error_0 pose_observation = S754_nan
  \/ FiducialPoseObservation.error_1 pose_observation = S754_nan ->
  calc_tag_angles image_observation config_store s = (inr out, s2) ->
  TagAngleObservation.distance out
  = norm (Pose3d.translation
            (FiducialPoseObservation.pose_1 pose_observation)).
Proof.
  intros Hsolve Hnan Hrun.
  rewrite (returned_distance _ _ _ _ _ _ _ Hsolve Hrun).
  unfold select_distance.
  destruct Hnan as [-> | ->]; by rewrite ?ltb_nan_l, ?ltb_nan_r.
Qed.

(** X5.  Of the solver's answer the method reads the two fit-errors and
    the two translations only: two answers that agree on these, whatever
    their rotations and tag ids, and in whatever state of the estimator,
    give the same observation. *)
Theorem result_reads_errors_and_translations image_observation config_store
    s s' p p' s1 s1' :
  solve_fiducial_pose image_observation config_store s = (inr p, s1) ->
  solve_fiducial_pose image_observation config_store s' = (inr p', s1') ->
  FiducialPoseObservation.error_0 p = FiducialPoseObservation.error_0 p' ->
  FiducialPoseObservation.error_1 p = FiducialPoseObservation.error_1 p' ->
  Pose3d.translation (FiducialPoseObservation.pose_0 p)
  = Pose3d.translation (FiducialPoseObservation.pose_0 p') ->
  Pose3d.translation (FiducialPoseObservation.pose_1 p)
  = Pose3d.translation (FiducialPoseObservation.pose_1 p') ->
  (calc_tag_angles image_observation config_store s).1
  = (calc_tag_angles image_observation config_store s').1.
Proof.
  intros Hsolve Hsolve' He0 He1 Ht0 Ht1.
  rewrite !calc_tag_angles_stages.
  destruct (angle_stage _ _) as [e|rows]; [done|].
  rewrite Hsolve, Hsolve'. simpl. unfold select_distance.
  by rewrite He0, He1, Ht0, Ht1.
Qed.

End Coverage.

(** * Properties of the camera test script *)

Section Script.

Import CvTest.

Lemma matches_spec vid pid i :
  matches vid pid i = true <->
  CameraInfo.vid i = Some vid /\ CameraInfo.pid i = Some pid.
Proof.
  unfold matches, eq_int. rewrite andb_true_iff.
  destruct (CameraInfo.vid i) as [v|], (CameraInfo.pid i) as [q|];
    rewrite ?Z.eqb_eq; split; intros [Hv Hp]; try done.
  - by subst.
  - injection Hv as ->. by injection Hp as ->.
Qed.

Lemma find_camera_loop_skip vid pid before cameras :
  Forall (fun j => matches vid pid j = false) before ->
  find_camera_loop vid pid (before ++ cameras)
  = find_camera_loop vid pid cameras.
Proof.
  induction 1 as [|j before Hj _ IH]; [done|]. simpl. by rewrite Hj.
Qed.

Lemma find_camera_loop_inv vid pid cameras lines cap :
  find_camera_loop vid pid cameras = (lines, Some cap) ->
  exists before i after,
    cameras = before ++ i :: after /\
    Forall (fun j => matches vid pid j = false) before /\
    matches vid pid i = true /\
    cap = VideoCapture.mk (CameraInfo.index i) (CameraInfo.backend i) /\
    lines = found_lines vid pid i.
Proof.
  induction cameras as [|j rest IH]; [done|]. simpl.
  destruct (matches vid pid j) eqn:Hj.
  - intros [= <- <-]. by exists [], j, rest.
  - intros Hrest. destruct (IH Hrest) as (before & i & after & -> & ? & ? & ? & ?).
    exists (j :: before), i, after. repeat split; try done. by constructor.
Qed.

Lemma find_camera_loop_none vid pid cameras :
  (find_camera_loop vid pid cameras).2 = None <->
  Forall (fun j => matches vid pid j = false) cameras.
Proof.
  induction cameras as [|j rest IH]; simpl.
  - split; [by constructor|done].
  - destruct (matches vid pid j) eqn:Hj; simpl.
    + split; [done|]. intros Hall. apply Forall_cons in Hall as [Hno _].
      by rewrite Hj in Hno.
    + rewrite IH. split; [by constructor|]. by intros [_ ?]%Forall_cons.
Qed.

Lemma find_camera_loop_quiet vid pid cameras :
  (find_camera_loop vid pid cameras).2 = None ->
  (find_camera_loop vid pid cameras).1 = [].
Proof.
  induction cameras as [|j rest IH]; [done|]. simpl.
  by destruct (matches vid pid j).
Qed.

Lemma no_match_Forall vid pid cameras :
  (forall i, i ∈ cameras ->
     ~ (CameraInfo.vid i = Some vid /\ CameraInfo.pid i = Some pid)) <->
  Forall (fun j => matches vid pid j = false) cameras.
Proof.
  rewrite Forall_forall. split; intros Hall i Hi.
  - destruct (matches vid pid i) eqn:Hm; [|done].
    apply matches_spec in Hm. by destruct (Hall i Hi).
  - intros Hm%matches_spec. by rewrite (Hall i Hi) in Hm.
Qed.

Lemma find_camera_loop_first vid pid before i after :
  Forall (fun j => matches vid pid j = false) before ->
  matches vid pid i = true ->
  find_camera_loop vid pid (before ++ i :: after)
  = (found_lines vid pid i,
     Some (VideoCapture.mk (CameraInfo.index i) (CameraInfo.backend i))).
Proof.
  intros Hbefore Hi. rewrite find_camera_loop_skip by done.
  simpl. by rewrite Hi.
Qed.

(** X6.  [find_camera] returns [None] exactly when no enumerated camera
    reports both the VID and the PID asked for, and then it has printed
    nothing. *)
Theorem find_camera_none_iff enumerate_cameras vid pid apiPreference :
  let result := find_camera enumerate_cameras vid pid apiPreference in
  (result.2 = None <->
   forall i, i ∈ enumerate_cameras apiPreference ->
     ~ (CameraInfo.vid i = Some vid /\ CameraInfo.pid i = Some pid)) /\
  (result.2 = None -> result.1 = []).
Proof.
  unfold find_camera. simpl. split.
  - by rewrite find_camera_loop_none, no_match_Forall.
  - apply find_camera_loop_quiet.
Qed.

(** X7.  [find_camera] returns a capture exactly for the first enumerated
    camera that reports both ids: the capture is opened on that camera's
    index and backend, the three lines printed are about that camera, and
    no camera before it matches. *)
Theorem find_camera_some_iff enumerate_cameras vid pid apiPreference
    lines cap :
  find_camera enumerate_cameras vid pid apiPreference = (lines, Some cap) <->
  exists before i after,
    enumerate_cameras apiPreference = before ++ i :: after /\
    (forall j, j ∈ before ->
       ~ (CameraInfo.vid j = Some vid /\ CameraInfo.pid j = Some pid)) /\
    CameraInfo.vid i = Some vid /\ CameraInfo.pid i = Some pid /\
    cap = VideoCapture.mk (CameraInfo.index i) (CameraInfo.backend i) /\
    lines = found_lines vid pid i.
Proof.
  unfold find_camera. split.
  - intros Hfound.
    destruct (find_camera_loop_inv _ _ _ _ _ Hfound)
      as (before & i & after & Hsplit & Hbefore & Hi & -> & ->).
    apply matches_spec in Hi as [Hv Hp].
    exists before, i, after. repeat split; try done.
    intros j Hj Hmatch. apply matches_spec in Hmatch.
    rewrite Forall_forall in Hbefore. by rewrite (Hbefore j Hj) in Hmatch.
  - intros (before & i & after & -> & Hbefore & Hv & Hp & -> & ->).
    rewrite find_camera_loop_skip.
    + simpl. by rewrite (proj2 (matches_spec vid pid i)).
    + apply Forall_forall. intros j Hj.
      destruct (matches vid pid j) eqn:Hm; [|done].
      apply matches_spec in Hm. by destruct (Hbefore j Hj).
Qed.

(** X8.  Cameras that do not report a VID or a PID are passed over:
    leaving them out of the enumeration changes neither what is printed
    nor the capture returned. *)
Theorem find_camera_passes_over_unreported enumerate_cameras vid pid
    apiPreference :
  find_camera
    (fun api =>
       filter (fun i => is_Some (CameraInfo.vid i) /\
                        is_Some (CameraInfo.pid i))
              (enumerate_cameras api))
    vid pid apiPreference
  = find_camera enumerate_cameras vid pid apiPreference.
Proof.
  unfold find_camera. generalize (enumerate_cameras apiPreference).
  intros cameras. induction cameras as [|j rest IH]; [done|].
  rewrite filter_cons. destruct (decide _) as [Hboth|Hmissing]; simpl.
  - by rewrite IH.
  - rewrite IH. destruct (matches vid pid j) eqn:Hj; [|done].
    apply matches_spec in Hj as [Hv Hp]. destruct Hmissing.
    by rewrite Hv, Hp.
Qed.

Lemma capture_loop_delivered {Frame : Type} (turns : list (Frame * Z))
    (reads : list (Read Frame)) :
  Forall (fun turn => turn.2 <> ord "q") turns ->
  capture_loop (delivered turns ++ reads)
  = (map (fun turn => Imshow "frame" turn.1) turns
       ++ (capture_loop reads).1,
     (capture_loop reads).2).
Proof.
  unfold delivered.
  induction 1 as [|[frame key] turns Hkey _ IH]; simpl.
  - by destruct (capture_loop reads).
  - simpl in Hkey. apply Z.eqb_neq in Hkey. rewrite Hkey.
    by rewrite IH.
Qed.

(** X9.  The loop ends at the first failed read: every frame delivered
    before it (no key [q] among them) has been shown, in order, then the
    line [Failed to capture frame] is printed and nothing that the device
    would deliver afterwards is read. *)
Theorem loop_stops_at_failed_read {Frame : Type} (turns : list (Frame * Z))
    (later : list (Read Frame)) :
  Forall (fun turn => turn.2 <> ord "q") turns ->
  capture_loop (delivered turns ++ ReadFailed :: later)
  = (map (fun turn => Imshow "frame" turn.1) turns
       ++ [Print "Failed to capture frame"],
     Broke).
Proof. intros Hkeys. by rewrite capture_loop_delivered. Qed.

(** X10.  The loop ends at the first key [q]: the frame read in that turn
    is still shown, after all the frames before it, nothing is printed,
    and nothing later is read. *)
Theorem loop_stops_at_q {Frame : Type} (turns : list (Frame * Z))
    (frame : Frame) (later : list (Read Frame)) :
  Forall (fun turn => turn.2 <> ord "q") turns ->
  capture_loop (delivered turns ++ ReadFrame frame (ord "q") :: later)
  = (map (fun turn => Imshow "frame" turn.1) (turns ++ [(frame, ord "q")]),
     Broke).
Proof.
  intros Hkeys. rewrite capture_loop_delivered by done.
  by rewrite map_app.
Qed.


(** X12.  With no camera reporting VID 0x0C45 and PID 0x6366 the script
    prints nothing, shows nothing and ends in [AttributeError], whatever
    any device would deliver. *)
Theorem script_without_camera_raises {Frame : Type} enumerate_cameras
    (device : VideoCapture.t -> list (Read Frame)) :
  (forall i, i ∈ enumerate_cameras CAP_ANY ->
     ~ (CameraInfo.vid i = Some 0x0C45%Z /\
        CameraInfo.pid i = Some 0x6366%Z)) ->
  script enumerate_cameras device = ([], Raised AttributeError).
Proof.
  intros Hnone%no_match_Forall%find_camera_loop_none. unfold script.
  pose proof (find_camera_loop_quiet _ _ _ Hnone) as Hquiet.
  unfold find_camera.
  destruct (find_camera_loop _ _ _) as [lines cap]. simpl in *.
  by rewrite Hnone, Hquiet.
Qed.

(** X13.  With a camera found, the script reads from the first camera
    that reports VID 0x0C45 and PID 0x6366, opened on its index and
    backend: it prints the three lines about it and, when no key [q] is
    pressed before the first failed read, shows the frames that this
    device delivers until that read, prints [Failed to capture frame]
    and stops. *)
Theorem script_shows_until_failure {Frame : Type} enumerate_cameras
    (device : VideoCapture.t -> list (Read Frame))
    before i after (turns : list (Frame * Z)) later :
  enumerate_cameras CAP_ANY = before ++ i :: after ->
  (forall j, j ∈ before ->
     ~ (CameraInfo.vid j = Some 0x0C45%Z /\
        CameraInfo.pid j = Some 0x6366%Z)) ->
  CameraInfo.vid i = Some 0x0C45%Z ->
  CameraInfo.pid i = Some 0x6366%Z ->
  device (VideoCapture.mk (CameraInfo.index i) (CameraInfo.backend i))
  = delivered turns ++ ReadFailed :: later ->
  Forall (fun turn => turn.2 <> ord "q") turns ->
  script enumerate_cameras device
  = (map Print (found_lines 0x0C45 0x6366 i)
       ++ map (fun turn => Imshow "frame" turn.1) turns
       ++ [Print "Failed to capture frame"],
     Broke).
Proof.
  intros Hsplit Hbefore%no_match_Forall Hv Hp Hdevice Hkeys.
  unfold script, find_camera. rewrite Hsplit.
  rewrite (find_camera_loop_first _ _ _ _ _ Hbefore)
    by (by apply matches_spec).
  by rewrite Hdevice, capture_loop_delivered.
Qed.

End Script.

(** ** The further properties at concrete inputs *)

Section ConcreteCoverage.

Import CameraMatrixTagAngleCalculator Pinhole CvTest.

Lemma raised_exception_origin_witness :
  IndexError = TypeError /\ square ++ square = [] /\ 0 = 0 \/
  IndexError = cv2_error /\ square ++ square <> [] /\ true = false /\
    0 = 0 \/
  IndexError = LinAlgError /\ true = true /\ square ++ square <> [] /\
    inv identity3 = None /\ 0 = 0 \/
  IndexError = IndexError /\ true = true /\
    is_Some (inv identity3) /\ 4 < length (square ++ square) /\ 0 = 0 \/
  solve_fiducial_pose (Externals := replaying clear)
    (observation (square ++ square)) (calibration identity3) 0
  = (inl IndexError, 0) /\
    square ++ square <> [] /\ true = true /\
    length (square ++ square) <= 4 /\ is_Some (inv identity3).
Proof.
  apply (@raised_exception_origin nat (replaying clear)
           (observation (square ++ square)) (calibration identity3) 0
           IndexError 0).
  vm_compute. reflexivity.
Defined.

Lemma returned_observation_has_four_rows_witness :
  length (rows (take 3 square)) = 4 /\
  length (take 3 square) <= 4 /\
  forall i, length (take 3 square) <= i < 4 ->
    rows (take 3 square) !! i = Some (F64.zero, F64.zero).
Proof.
  apply (@returned_observation_has_four_rows nat (replaying clear)
           (observation (take 3 square)) (calibration identity3) 0
           (expected (take 3 square) F64.lit_2_0) 1).
  vm_compute. reflexivity.
Defined.

Lemma nan_error_selects_hypothesis_1_witness :
  TagAngleObservation.distance (expected square F64.lit_2_5)
  = norm (Externals := replaying (poses S754_nan F64.lit_0_02))
      (Pose3d.translation
         (FiducialPoseObservation.pose_1 (poses S754_nan F64.lit_0_02))).
Proof.
  apply (@nan_error_selects_hypothesis_1 nat
           (replaying (poses S754_nan F64.lit_0_02))
           (observation square) (calibration identity3) 0
           (poses S754_nan F64.lit_0_02) 1
           (expected square F64.lit_2_5) 1).
  - reflexivity.
  - left. reflexivity.
  - vm_compute. reflexivity.
Defined.

Lemma result_reads_errors_and_translations_witness :
  (calc_tag_angles (Externals0 := drifting)
     (observation square) (calibration identity3) 0).1
  = (calc_tag_angles (Externals0 := drifting)
       (observation square) (calibration identity3) 3).1.
Proof.
  apply (@result_reads_errors_and_translations nat drifting
           (observation square) (calibration identity3) 0 3
           clear (turned 3) 1 4); reflexivity.
Defined.

Lemma loop_stops_at_failed_read_witness :
  capture_loop
    (delivered [(10, -1); (11, 81)]%Z ++ ReadFailed :: [ReadFrame 12%Z 0%Z])
  = ([Imshow "frame" 10%Z; Imshow "frame" 11%Z;
      Print "Failed to capture frame"], Broke).
Proof.
  apply (@loop_stops_at_failed_read Z [(10, -1); (11, 81)]%Z
           [ReadFrame 12%Z 0%Z]).
  repeat constructor; vm_compute; discriminate.
Defined.

Lemma loop_stops_at_q_witness :
  capture_loop
    (delivered [(10, -1); (11, 81)]%Z
       ++ ReadFrame 12%Z (ord "q") :: [ReadFrame 13%Z 0%Z])
  = ([Imshow "frame" 10%Z; Imshow "frame" 11%Z; Imshow "frame" 12%Z],
     Broke).
Proof.
  apply (@loop_stops_at_q Z [(10, -1); (11, 81)]%Z 12%Z
           [ReadFrame 13%Z 0%Z]).
  repeat constructor; vm_compute; discriminate.
Defined.

Lemma script_without_camera_raises_witness :
  script (Frame := Z) (fun _ => [webcam; virtual])
         (fun _ => [ReadFrame 10%Z 0%Z])
  = ([], Raised AttributeError).
Proof.
  apply (@script_without_camera_raises Z (fun _ => [webcam; virtual])).
  intros i Hi [Hv Hp].
  apply elem_of_cons in Hi as [->|Hi]; [discriminate Hv|].
  apply elem_of_cons in Hi as [->|Hi]; [discriminate Hv|].
  by apply elem_of_nil in Hi.
Defined.

Lemma script_shows_until_failure_witness :
  script (Frame := Z)
    (fun _ => [webcam; virtual; arducam 2; arducam 5])
    (fun cap =>
       if Z.eqb (VideoCapture.index cap) 2
       then delivered [(10, -1); (11, 81)]%Z ++ ReadFailed :: [ReadFrame 12 0]%Z
       else [])
  = ([Print "Found camera: 2 with VID 3141 and PID 25446";
      Print "Camera backend: 1400";
      Print "Camera name: Arducam OV9281";
      Imshow "frame" 10%Z; Imshow "frame" 11%Z;
      Print "Failed to capture frame"], Broke).
Proof.
  apply (@script_shows_until_failure Z
           (fun _ => [webcam; virtual; arducam 2; arducam 5])
           _ [webcam; virtual] (arducam 2) [arducam 5]
           [(10, -1); (11, 81)]%Z [ReadFrame 12 0]%Z).
  - reflexivity.
  - intros j Hj [Hv Hp].
    apply elem_of_cons in Hj as [->|Hj]; [discriminate Hv|].
    apply elem_of_cons in Hj as [->|Hj]; [discriminate Hv|].
    by apply elem_of_nil in Hj.
  - reflexivity.
  - reflexivity.
  - reflexivity.
  - repeat constructor; vm_compute; discriminate.
Defined.

End ConcreteCoverage.
